(** * The Thairath news scraper: a shallow embedding and its properties

    The development follows the two modules of the repository:

    - [src/scrapers/base_scraper.py]: class [BaseScraper] with the
      retrying fetch routine [make_request] and the helper [extract_text];
    - [src/scrapers/thairath_news_scrapper.py]: class [ThaiRathNewsScraper]
      with [scrape], [scrape_highlight_news] and [scrape_news_content].

    Python effects are made explicit: a computation threads the trace of
    observable events (sleeps, HTTP requests, log records) and ends either
    by returning a value or by raising an exception.  The network is an
    oracle that answers the n-th HTTP request for a given URL. *)

From Stdlib Require Import ZArith NArith List String Ascii Bool Lia.
Import ListNotations.
Open Scope string_scope.
Open Scope Z_scope.
Open Scope list_scope.

(* ------------------------------------------------------------------ *)
(** ** Python values used by the scrapers *)

Module Py.

(** A character of a [string] stands for a code point below 256.
    [isspace] is [str.isspace] on those code points. *)
Definition isspace (c : ascii) : bool :=
  let n := N_of_ascii c in
  ((9 <=? n) && (n <=? 13) || (28 <=? n) && (n <=? 32)
   || (n =? 133) || (n =? 160))%N.

Definition is_empty (s : string) : bool :=
  match s with EmptyString => true | String _ _ => false end.

(** [str.lstrip()], [str.rstrip()] and [str.strip()] without argument. *)
Fixpoint lstrip (s : string) : string :=
  match s with
  | EmptyString => EmptyString
  | String c r => if isspace c then lstrip r else s
  end.

Fixpoint rstrip (s : string) : string :=
  match s with
  | EmptyString => EmptyString
  | String c r =>
      let r' := rstrip r in
      if isspace c && is_empty r' then EmptyString else String c r'
  end.

Definition strip (s : string) : string := lstrip (rstrip s).

(** [re.findall(r"\S+", s)]: the maximal runs of non-blank characters. *)
Fixpoint nonwhitespace_from (cur : string) (s : string) : list string :=
  match s with
  | EmptyString => if is_empty cur then [] else [cur]
  | String c r =>
      if isspace c
      then (if is_empty cur then nonwhitespace_from EmptyString r
            else cur :: nonwhitespace_from EmptyString r)
      else nonwhitespace_from (cur ++ String c EmptyString)%string r
  end.

Definition nonwhitespace (s : string) : list string :=
  nonwhitespace_from EmptyString s.

(** [range(n)] for an integer [n]: empty when [n <= 0]. *)
Definition range (n : Z) : list Z := map Z.of_nat (seq 0 (Z.to_nat n)).

(** What an f-string writes for a value that is a string or [None]. *)
Definition format (v : option string) : string :=
  match v with
  | Some s => s
  | None => "None"
  end.

(** Exceptions that reach, or could reach, a caller of the scrapers.  All
    of them derive from [Exception]. *)
Inductive exn : Type :=
| AttributeError
| TypeError
| NotImplementedError
| RequestException                 (* requests.exceptions.RequestException *)
| ParserRejectedMarkup             (* bs4: html.parser gave up on the body *)
| OtherException (what : string).

Inductive outcome (A : Type) : Type :=
| Returned (a : A)
| Raised (e : exn).
Arguments Returned {A} a.
Arguments Raised {A} e.

End Py.
Export Py(exn(..), outcome(..)).

(* ------------------------------------------------------------------ *)
(** ** The parsed document tree (BeautifulSoup with [html.parser]) *)

Module Bs4.

#[local] Set Warnings "-register-all".

(** A page element: a text node, a comment, or a tag with its attribute
    dictionary (raw attribute values, in source order) and its contents. *)
Inductive node : Type :=
| NavigableString (s : string)
| Comment (s : string)
| Tag (name : string) (attrs : list (string * string)) (contents : list node).

(** The document that [BeautifulSoup(..., "html.parser")] builds is
    itself a tag, named "[document]", that holds the top-level elements. *)
Definition BeautifulSoup (markup : list node) : node :=
  Tag "[document]" [] markup.

(** The body of a response, by what [html.parser] makes of it: the
    top-level elements it builds, or a body that it rejects. *)
Inductive body : Type :=
| Html (markup : list node)
| Unparsable.

(** [BeautifulSoup(content, "html.parser")]: the document, or the
    exception of the parser. *)
Definition parse (content : body) : Py.outcome node :=
  match content with
  | Html markup => Py.Returned (BeautifulSoup markup)
  | Unparsable => Py.Raised Py.ParserRejectedMarkup
  end.

(** [Tag.__bool__] answers [True] whatever the contents, so the only falsy
    result of a fetch is [None]. *)
Definition truthy (soup : option node) : bool :=
  match soup with
  | Some _ => true
  | None => false
  end.

(** [tag.descendants]: every element below the tag, in document order. *)
Fixpoint descendants (n : node) : list node :=
  match n with
  | Tag _ _ cs => flat_map (fun c => c :: descendants c) cs
  | _ => []
  end.

Fixpoint lookup (key : string) (attrs : list (string * string)) : option string :=
  match attrs with
  | [] => None
  | (k, v) :: rest => if String.eqb k key then Some v else lookup key rest
  end.

(** [tag.get(key)]: the attribute value, or [None]. *)
Definition get (n : node) (key : string) : option string :=
  match n with
  | Tag _ attrs _ => lookup key attrs
  | _ => None
  end.

Definition is_tag_named (name : string) (n : node) : bool :=
  match n with
  | Tag nm _ _ => String.eqb nm name
  | _ => false
  end.

(** The tree builder stores [class] as the list of its blank-separated
    tokens; a class filter accepts a tag when one token, or the tokens
    joined by one space, equals the wanted value. *)
Definition class_matches (wanted : string) (n : node) : bool :=
  match get n "class" with
  | Some v =>
      let tokens := Py.nonwhitespace v in
      existsb (String.eqb wanted) tokens
      || String.eqb (String.concat " " tokens) wanted
  | None => false
  end.

(** [tag.find_all(name)]. *)
Definition find_all (n : node) (name : string) : list node :=
  filter (is_tag_named name) (descendants n).

(** [tag.find(name, {"class": cls})]: the first match in document order. *)
Definition find (n : node) (name cls : string) : option node :=
  List.find (fun d => is_tag_named name d && class_matches cls d)
            (descendants n).

(** [tag._all_strings(strip)]: the text nodes below the tag; comments are
    not text.  With [strip] each string is stripped and dropped if that
    leaves nothing. *)
Definition string_of (strip : bool) (d : node) : list string :=
  match d with
  | NavigableString s =>
      if strip
      then (let s' := Py.strip s in if Py.is_empty s' then [] else [s'])
      else [s]
  | _ => []
  end.

Definition all_strings (strip : bool) (n : node) : list string :=
  flat_map (string_of strip) (descendants n).

(** [tag.get_text(strip=...)], with the default separator, the empty
    string; [getText] is its alias. *)
Definition get_text (strip : bool) (n : node) : string :=
  String.concat "" (all_strings strip n).

Definition getText (n : node) : string := get_text false n.

End Bs4.
Export Bs4(node(..)).

(* ------------------------------------------------------------------ *)
(** ** Observable effects *)

Module Effects.

Inductive log_record : Type :=
| RequestFailed (attempt_no max_retries : Z)
| FetchFailed (url : string) (max_retries : Z)
| TextExtractionFailed.

(** What a run does to the outside world, in the order it does it. *)
Inductive event : Type :=
| SleepUniform (lo hi : N)          (* time.sleep(random.uniform(lo, hi)) *)
| Sleep (seconds : Z)               (* time.sleep(seconds) *)
| Get (url : string) (headers : list (string * string)) (timeout : Z)
| LogWarning (r : log_record)
| LogError (r : log_record).

Definition trace : Type := list event.

Definition is_get (e : event) : bool :=
  match e with
  | Get _ _ _ => true
  | _ => false
  end.

(** The number of HTTP requests issued so far. *)
Definition count_gets (t : trace) : nat := List.length (filter is_get t).

(** What [requests.get] does: it raises a [RequestException] (timeout,
    connection error, ...) or answers with a status code and a body. *)
Record Response : Type := {
  status_code : Z;
  content : Bs4.body
}.

Inductive http_result : Type :=
| Fails
| Responds (r : Response).

(** The network answers a request by its position among all requests of
    the run and by its URL. *)
Definition network : Type := nat -> string -> http_result.

(** A computation maps the trace so far to an outcome and the extended
    trace. *)
Definition M (A : Type) : Type := trace -> outcome A * trace.

Definition ret {A} (a : A) : M A := fun t => (Returned a, t).

Definition bind {A B} (c : M A) (k : A -> M B) : M B :=
  fun t =>
    match c t with
    | (Returned a, t') => k a t'
    | (Raised e, t') => (Raised e, t')
    end.

Definition raise {A} (e : exn) : M A := fun t => (Raised e, t).

(** [try: c  except <class>: h], the class given by the exceptions it
    catches. *)
Definition try_except {A} (c : M A) (catches : exn -> bool) (h : exn -> M A)
  : M A :=
  fun t =>
    match c t with
    | (Returned a, t') => (Returned a, t')
    | (Raised e, t') => if catches e then h e t' else (Raised e, t')
    end.

(** [except Exception]. *)
Definition any_exception (e : exn) : bool := true.

(** [except requests.exceptions.RequestException]. *)
Definition request_exception (e : exn) : bool :=
  match e with
  | RequestException => true
  | _ => false
  end.

Definition emit (e : event) : M unit := fun t => (Returned tt, t ++ [e]).

Definition lift {A} (o : outcome A) : M A := fun t => (o, t).

End Effects.
Export Effects.

Declare Scope py_scope.
Delimit Scope py_scope with py.
Notation "x <- c ;; k" := (bind c (fun x => k))
  (at level 61, c at next level, right associativity) : py_scope.
Notation "c ;; k" := (bind c (fun _ => k))
  (at level 61, right associativity) : py_scope.
Open Scope py_scope.

(* ------------------------------------------------------------------ *)
(** ** base_scraper.py *)

(** The fields that [BaseScraper.__init__] sets.  The two bounds of
    [delay_range] are the arguments of [random.uniform]; they are taken
    as naturals, as the default (1, 3) is. *)
Record BaseScraper : Type := {
  base_url : string;
  headers : list (string * string);
  max_retries : Z;
  timeout : Z;
  delay_range : N * N
}.

Definition default_headers : list (string * string) :=
  [ ("User-Agent",
     "Mozilla/5.0 (Windows NT 10.0; Win64; x64) AppleWebKit/537.36 (KHTML, like Gecko) Chrome/91.0.4472.124 Safari/537.36");
    ("Accept-Language", "en-US,en;q=0.9") ].

(** [BaseScraper.__init__]; [headers or {...}] also replaces an empty
    dictionary. *)
Definition BaseScraper_init (base_url : string)
    (headers : option (list (string * string)))
    (max_retries timeout : Z) (delay_range : N * N) : BaseScraper :=
  {| base_url := base_url;
     headers := match headers with
                | Some (h :: hs) => h :: hs
                | _ => default_headers
                end;
     max_retries := max_retries;
     timeout := timeout;
     delay_range := delay_range |}.

(** The argument of [extract_text] is untyped.  It is [None], a tag, or
    some other object, which the function observes only through its truth
    value and its [get_text(strip=True)], either of which may raise. *)
Inductive element : Type :=
| ElNone
| ElTag (name : string) (attrs : list (string * string)) (contents : list node)
| ElObject (truth : outcome bool) (text : outcome string).

Definition element_truth (e : element) : outcome bool :=
  match e with
  | ElNone => Returned false
  | ElTag _ _ _ => Returned true
  | ElObject truth _ => truth
  end.

Definition element_get_text (e : element) : outcome string :=
  match e with
  | ElNone => Raised AttributeError
  | ElTag name attrs contents =>
      Returned (Bs4.get_text true (Tag name attrs contents))
  | ElObject _ text => text
  end.

(** How one turn of the retry loop ends: the function returns, or the
    loop goes on to the next attempt. *)
Inductive loop_exit (A : Type) : Type :=
| Return (v : A)
| Continue.
Arguments Return {A} v.
Arguments Continue {A}.

Section Base.

Variable net : network.
Variable self : BaseScraper.

(** [time.sleep] of a delay that [random.uniform] draws from
    [self.delay_range]. *)
Definition sleep_random : M unit :=
  emit (SleepUniform (fst (delay_range self)) (snd (delay_range self))).

Definition time_sleep (seconds : Z) : M unit := emit (Sleep seconds).

(** [requests.get(url, headers=self.headers, timeout=self.timeout)]. *)
Definition requests_get (url : string) : M Response :=
  fun t =>
    let t' := t ++ [Get url (headers self) (timeout self)] in
    match net (count_gets t) url with
    | Fails => (Raised RequestException, t')
    | Responds r => (Returned r, t')
    end.

(** [response.raise_for_status()]: client and server errors raise an
    [HTTPError], which is a [RequestException]. *)
Definition raise_for_status (response : Response) : M unit :=
  if (400 <=? status_code response) && (status_code response <? 600)
  then raise RequestException
  else ret tt.

(** One turn of the loop of [make_request], lines 55-81.  The handler
    is for [RequestException] only: what the parser raises on line 66
    leaves the function. *)
Definition make_request_attempt (url : string) (attempt : Z)
  : M (loop_exit (option node)) :=
  try_except
    (sleep_random ;;
     response <- requests_get url ;;
     raise_for_status response ;;
     soup <- lift (Bs4.parse (content response)) ;;
     ret (Return (Some soup)))
    request_exception
    (fun e =>
       emit (LogWarning (RequestFailed (attempt + 1) (max_retries self))) ;;
       if attempt =? max_retries self - 1
       then emit (LogError (FetchFailed url (max_retries self))) ;;
            ret (Return None)
       else time_sleep (2 ^ attempt) ;;
            ret Continue).

Fixpoint make_request_loop (url : string) (attempts : list Z)
  : M (option node) :=
  match attempts with
  | [] => ret None
  | attempt :: rest =>
      r <- make_request_attempt url attempt ;;
      match r with
      | Return v => ret v
      | Continue => make_request_loop url rest
      end
  end.

Definition make_request (url : string) : M (option node) :=
  make_request_loop url (Py.range (max_retries self)).

(** [extract_text], lines 93-97. *)
Definition extract_text (element : element) (default : string) : M string :=
  try_except
    (truth <- lift (element_truth element) ;;
     if truth then lift (element_get_text element) else ret default)
    any_exception
    (fun e => emit (LogWarning TextExtractionFailed) ;; ret default).

(** [BaseScraper.scrape], overridden by the site scrapers. *)
Definition BaseScraper_scrape (url : string) : M unit :=
  raise NotImplementedError.

End Base.

(* ------------------------------------------------------------------ *)
(** ** thairath_news_scrapper.py *)

(** Attribute access on the result of a lookup that may be [None]:
    [x.find(name, {"class": cls})] and [x.find_all(name)] raise an
    [AttributeError] when [x] is [None]. *)
Definition find_on (x : option node) (name cls : string) : M (option node) :=
  match x with
  | Some n => ret (Bs4.find n name cls)
  | None => raise AttributeError
  end.

Definition find_all_on (x : option node) (name : string) : M (list node) :=
  match x with
  | Some n => ret (Bs4.find_all n name)
  | None => raise AttributeError
  end.

Record ThaiRathNewsScraper : Type := {
  base : BaseScraper;
  news_category : list string
}.

(** [ThaiRathNewsScraper.__init__]. *)
Definition ThaiRathNewsScraper_init : ThaiRathNewsScraper :=
  {| base := BaseScraper_init "https://www.thairath.co.th/news/" None
                              3 10 (1%N, 3%N);
     news_category :=
       ["royal"; "society"; "politic"; "money"; "foreign"; "crime"] |}.

(** The dictionary built for one highlighted article, lines 44-49. *)
Record article : Type := {
  title : option string;
  link : string;
  news_type : string;
  article_content : option string
}.

Section ThaiRath.

Variable net : network.
Variable self : ThaiRathNewsScraper.

(** [scrape_news_content], lines 60-68. *)
Definition scrape_news_content (url : string) : M (option string) :=
  soup <- make_request net (base self) url ;;
  if negb (Bs4.truthy soup) then ret None
  else
    body <- find_on soup "div" "article-body" ;;
    news_content_scrap <- find_all_on body "p" ;;
    ret (Some (fold_left
                 (fun new_content line =>
                    (new_content ++ Bs4.getText line)%string)
                 news_content_scrap "")).

(** The loop of [scrape_highlight_news], lines 41-50. *)
Fixpoint highlight_loop (url category : string) (highlight_news : list node)
    (highlight_news_data : list article) : M (list article) :=
  match highlight_news with
  | [] => ret highlight_news_data
  | news :: rest =>
      let news_content_link := (url ++ Py.format (Bs4.get news "href"))%string in
      news_content <- scrape_news_content news_content_link ;;
      highlight_loop url category rest
        (highlight_news_data ++
           [ {| title := Bs4.get news "title";
                link := news_content_link;
                news_type := category;
                article_content := news_content |} ])
  end.

(** [scrape_highlight_news], lines 34-51. *)
Definition scrape_highlight_news (url category : string)
  : M (option (list article)) :=
  soup <- make_request net (base self) url ;;
  if negb (Bs4.truthy soup) then ret None
  else
    track <- find_on soup "div" "slick-track" ;;
    highlight_news <- find_all_on track "a" ;;
    highlight_news_data <- highlight_loop url category highlight_news [] ;;
    ret (Some highlight_news_data).

(** A call [self.scrape_highlight_news(...)] with positional arguments:
    the method requires both [url] and [category], and a call that does
    not supply exactly these raises a [TypeError] before the body runs. *)
Definition call_scrape_highlight_news (args : list string)
  : M (option (list article)) :=
  match args with
  | [url; category] => scrape_highlight_news url category
  | _ => raise TypeError
  end.

(** [scrape], lines 21-23. *)
Fixpoint scrape_loop (categories : list string) : M unit :=
  match categories with
  | [] => ret tt
  | category :: rest =>
      call_scrape_highlight_news
        [(base_url (base self) ++ category)%string] ;;
      sleep_random (base self) ;;
      scrape_loop rest
  end.

Definition scrape (url : string) : M unit :=
  scrape_loop (news_category self).

End ThaiRath.

(* ------------------------------------------------------------------ *)
(** ** What the environment does to an attempt *)

(** The request numbered [n] of the run fails: [requests.get] raises, or
    the status code makes [raise_for_status] raise. *)
Definition attempt_fails (net : network) (n : nat) (url : string) : bool :=
  match net n url with
  | Fails => true
  | Responds r => (400 <=? status_code r) && (status_code r <? 600)
  end.

(** The request numbered [n] succeeds: it is answered without an error
    status, and [html.parser] reads the markup [markup] from the body. *)
Definition attempt_succeeds (net : network) (n : nat) (url : string)
    (markup : list node) : Prop :=
  exists r, net n url = Responds r
            /\ (400 <=? status_code r) && (status_code r <? 600) = false
            /\ content r = Bs4.Html markup.

(** The request numbered [n] is answered without an error status, with a
    body that [html.parser] rejects. *)
Definition attempt_rejected (net : network) (n : nat) (url : string) : bool :=
  match net n url with
  | Fails => false
  | Responds r =>
      negb ((400 <=? status_code r) && (status_code r <? 600))
      && match content r with
         | Bs4.Html _ => false
         | Bs4.Unparsable => true
         end
  end.

(** The events of one attempt of [make_request] on [url]. *)
Definition attempt_prelude (self : BaseScraper) (url : string) : trace :=
  [ SleepUniform (fst (delay_range self)) (snd (delay_range self));
    Get url (headers self) (timeout self) ].

(** A failed attempt [k] that is followed by a retry. *)
Definition retried_attempt (self : BaseScraper) (url : string) (k : nat)
  : trace :=
  attempt_prelude self url ++
  [ LogWarning (RequestFailed (Z.of_nat k + 1) (max_retries self));
    Sleep (2 ^ Z.of_nat k) ].

(** The failed attempt that exhausts the retries. *)
Definition final_failed_attempt (self : BaseScraper) (url : string) : trace :=
  attempt_prelude self url ++
  [ LogWarning (RequestFailed (max_retries self) (max_retries self));
    LogError (FetchFailed url (max_retries self)) ].

(** The sleeps of a trace, in order. *)
Definition is_backoff (e : event) : bool :=
  match e with
  | Sleep _ => true
  | _ => false
  end.

Definition backoffs (t : trace) : list Z :=
  flat_map (fun e => match e with Sleep s => [s] | _ => [] end) t.

(** Every request of a trace comes right after a random delay drawn from
    [lo, hi]; a trace that starts with a request has none before it. *)
Fixpoint delay_before_each_get (lo hi : N) (t : trace) : bool :=
  match t with
  | [] => true
  | Get _ _ _ :: _ => false
  | SleepUniform lo' hi' :: Get _ _ _ :: rest =>
      (lo' =? lo)%N && (hi' =? hi)%N && delay_before_each_get lo hi rest
  | _ :: rest => delay_before_each_get lo hi rest
  end.

(* ------------------------------------------------------------------ *)
(** ** Example worlds *)

(** A network on which every request times out. *)
Definition always_fails : network := fun _ _ => Fails.

(** A network whose first [k] requests fail and whose later ones are
    answered with [markup]. *)
Definition fails_then_serves (k : nat) (markup : list node) : network :=
  fun n _ =>
    if (n <? k)%nat then Fails
    else Responds {| status_code := 200; content := Bs4.Html markup |}.

(** A static site: the pages it serves, by URL; any other URL is answered
    with status 404. *)
Fixpoint page_of (site : list (string * list node)) (url : string)
  : option (list node) :=
  match site with
  | [] => None
  | (u, markup) :: rest =>
      if String.eqb u url then Some markup else page_of rest url
  end.

Definition serves (site : list (string * list node)) : network :=
  fun _ url =>
    match page_of site url with
    | Some markup =>
        Responds {| status_code := 200; content := Bs4.Html markup |}
    | None => Responds {| status_code := 404; content := Bs4.Html [] |}
    end.

(** A network that answers every request with status 200 and a body that
    [html.parser] rejects. *)
Definition serves_unparsable : network :=
  fun _ _ => Responds {| status_code := 200; content := Bs4.Unparsable |}.

Definition thairath : ThaiRathNewsScraper := ThaiRathNewsScraper_init.

Definition no_retry_scraper : BaseScraper :=
  BaseScraper_init "https://www.thairath.co.th/news/" None 0 10 (1%N, 3%N).

(* ------------------------------------------------------------------ *)
(** ** Example pages *)

Definition listing_url : string := "https://www.thairath.co.th/news/royal".

(** A category page whose carousel holds two links. *)
Definition listing_page : list node :=
  [ Tag "html" []
      [ Tag "body" []
          [ Tag "div" [("class", "slick-list")]
              [ Tag "div" [("class", "slick-track")]
                  [ Tag "a" [("href", "/a1"); ("title", "T1")] [];
                    Tag "a" [("href", "/a2"); ("title", "T2")] [] ] ] ] ] ].

(** An article page whose body holds the paragraphs Part1 and Part2. *)
Definition article_page : list node :=
  [ Tag "html" []
      [ Tag "body" []
          [ Tag "div" [("class", "article-body")]
              [ Tag "p" [] [NavigableString "Part1"];
                Tag "p" [] [NavigableString "Part2"] ] ] ] ].

(** The same article as the markup usually has it, with blanks around the
    text of a paragraph. *)
Definition spaced_article_page : list node :=
  [ Tag "html" []
      [ Tag "body" []
          [ Tag "div" [("class", "article-body")]
              [ Tag "p" [] [NavigableString " Part1 "];
                Tag "p" [] [NavigableString "Part2"] ] ] ] ].

(** A page that has paragraphs but no body container. *)
Definition page_without_body : list node :=
  [ Tag "html" []
      [ Tag "body" [] [ Tag "p" [] [NavigableString "Moved"] ] ] ].

(** A paragraph whose text is split by an inline tag. *)
Definition split_paragraph : list node :=
  [ NavigableString "Hello "; Tag "b" [] [NavigableString "World"] ].

(** The content of an article as a reader of the specification expects
    it: the text of each paragraph with the blanks around it removed. *)
Definition stripped_paragraphs (body : node) : string :=
  String.concat "" (map (fun p => Py.strip (Bs4.getText p))
                        (Bs4.find_all body "p")).

(** The part of an article record that the listing page determines. *)
Definition listing_entry (a : article) : option string * string * string :=
  (title a, link a, news_type a).

Definition expected_entry (url category : string) (news : node)
  : option string * string * string :=
  (Bs4.get news "title", (url ++ Py.format (Bs4.get news "href"))%string,
   category).

(* ------------------------------------------------------------------ *)
(** ** Observations on traces *)

(** The URLs requested in a trace, in order. *)
Definition requested_urls (t : trace) : list string :=
  flat_map (fun e => match e with Get u _ _ => [u] | _ => [] end) t.

(** The warning records and the error records of a trace, in order. *)
Definition warnings (t : trace) : list log_record :=
  flat_map (fun e => match e with LogWarning r => [r] | _ => [] end) t.

Definition errors (t : trace) : list log_record :=
  flat_map (fun e => match e with LogError r => [r] | _ => [] end) t.

(** The time spent in backoff sleeps. *)
Definition total_backoff (t : trace) : Z := fold_right Z.add 0 (backoffs t).

(** The links of the carousel of a category page; none when the page has
    no carousel. *)
Definition carousel_links (soup : node) : list node :=
  match Bs4.find soup "div" "slick-track" with
  | Some track => Bs4.find_all track "a"
  | None => []
  end.

Definition links_of_fetch (o : outcome (option node)) : list node :=
  match o with
  | Returned (Some soup) => carousel_links soup
  | _ => []
  end.

(** The URL that line 42 builds for a link of the carousel. *)
Definition article_url (url : string) (news : node) : string :=
  (url ++ Py.format (Bs4.get news "href"))%string.

(** A scraper that allows five attempts. *)
Definition patient_scraper : BaseScraper :=
  BaseScraper_init "https://www.thairath.co.th/news/" None 5 10 (1%N, 3%N).

(** A category page whose carousel is empty. *)
Definition empty_listing_page : list node :=
  [ Tag "html" []
      [ Tag "body" []
          [ Tag "div" [("class", "slick-track")] [] ] ] ].

(** An article page whose body container holds no paragraph. *)
Definition empty_article_page : list node :=
  [ Tag "html" []
      [ Tag "body" []
          [ Tag "div" [("class", "article-body")]
              [ Tag "div" [("class", "ads")] [NavigableString "Sponsored"] ] ] ] ].

(** The events of one call of [make_request] on [u], as far as the
    requests go: at most [max_retries] requests, all of them for [u] with
    the headers and timeout of the instance, each right after a random
    delay. *)
Definition fetch_run (self : BaseScraper) (u : string) (e : trace) : Prop :=
  (exists n, (n <= Z.to_nat (max_retries self))%nat
             /\ filter is_get e
                = repeat (Get u (headers self) (timeout self)) n)
  /\ delay_before_each_get (fst (delay_range self))
       (snd (delay_range self)) e = true.

(* ------------------------------------------------------------------ *)
(** ** Properties of the retry loop *)

Section RetryLoop.

Variable net : network.
Variable self : BaseScraper.
Variable url : string.

Lemma count_gets_app (t u : trace) :
  count_gets (t ++ u) = (count_gets t + count_gets u)%nat.
Proof.
  unfold count_gets. now rewrite filter_app, length_app.
Qed.

Lemma count_gets_retried (ks : list nat) :
  count_gets (flat_map (retried_attempt self url) ks) = List.length ks.
Proof.
  induction ks as [|k ks IH]; [reflexivity|].
  cbn [flat_map]. rewrite count_gets_app, IH. reflexivity.
Qed.

Lemma attempt_success (attempt : Z) (t : trace) (markup : list node) :
  attempt_succeeds net (count_gets t) url markup ->
  make_request_attempt net self url attempt t
  = (Returned (Return (Some (Bs4.BeautifulSoup markup))),
     t ++ attempt_prelude self url).
Proof.
  intros (r & Hnet & Hok & Hc).
  unfold make_request_attempt, try_except, bind, sleep_random, emit,
    requests_get, raise_for_status.
  rewrite count_gets_app, Nat.add_0_r, Hnet, Hok. cbn.
  now rewrite Hc, <- app_assoc.
Qed.

Lemma attempt_failure (attempt : Z) (t : trace) :
  attempt_fails net (count_gets t) url = true ->
  make_request_attempt net self url attempt t
  = if attempt =? max_retries self - 1
    then (Returned (Return None),
          t ++ attempt_prelude self url
            ++ [ LogWarning (RequestFailed (attempt + 1) (max_retries self));
                 LogError (FetchFailed url (max_retries self)) ])
    else (Returned Continue,
          t ++ attempt_prelude self url
            ++ [ LogWarning (RequestFailed (attempt + 1) (max_retries self));
                 Sleep (2 ^ attempt) ]).
Proof.
  unfold attempt_fails. intros Hf.
  unfold make_request_attempt, try_except, bind, sleep_random, emit,
    requests_get, raise_for_status, time_sleep, raise, ret.
  rewrite count_gets_app, Nat.add_0_r.
  destruct (net (count_gets t) url) as [|r].
  - cbn. destruct (attempt =? max_retries self - 1);
      cbn; now rewrite <- !app_assoc.
  - rewrite Hf. cbn. destruct (attempt =? max_retries self - 1);
      cbn; now rewrite <- !app_assoc.
Qed.

(** A run of failed attempts, none of them the last one allowed, leaves
    the loop where it was, with their events appended. *)
Lemma loop_retries (len : nat) : forall (a : nat) (t : trace) (rest : list Z),
  Z.of_nat (a + len) <= max_retries self - 1 ->
  (forall j, (j < len)%nat ->
             attempt_fails net (count_gets t + j) url = true) ->
  make_request_loop net self url (map Z.of_nat (seq a len) ++ rest) t
  = make_request_loop net self url rest
      (t ++ flat_map (retried_attempt self url) (seq a len)).
Proof.
  induction len as [|len IH]; intros a t rest Hlast Hfail.
  - cbn. now rewrite app_nil_r.
  - cbn [seq map app make_request_loop flat_map]. unfold bind at 1.
    rewrite attempt_failure
      by (rewrite <- (Nat.add_0_r (count_gets t)); apply Hfail; lia).
    destruct (Z.eqb_spec (Z.of_nat a) (max_retries self - 1)) as [E|_];
      [lia|].
    rewrite IH.
    + f_equal. unfold retried_attempt. now rewrite <- !app_assoc.
    + lia.
    + intros j Hj. rewrite !count_gets_app. cbn.
      replace (count_gets t + 1 + j)%nat with (count_gets t + S j)%nat by lia.
      apply Hfail. lia.
Qed.

Lemma range_split (n : Z) (k : nat) :
  Z.of_nat k < n ->
  Py.range n
  = map Z.of_nat (seq 0 k)
    ++ Z.of_nat k :: map Z.of_nat (seq (S k) (Z.to_nat n - S k)).
Proof.
  intros Hk. unfold Py.range.
  replace (Z.to_nat n) with (k + S (Z.to_nat n - S k))%nat at 1 by lia.
  rewrite seq_app, map_app. cbn. reflexivity.
Qed.

(** The first success is attempt [k]: the loop returns the document after
    [k] retried attempts and one successful one. *)
Lemma make_request_first_success (t : trace) (k : nat) (markup : list node) :
  Z.of_nat k < max_retries self ->
  (forall j, (j < k)%nat ->
             attempt_fails net (count_gets t + j) url = true) ->
  attempt_succeeds net (count_gets t + k) url markup ->
  make_request net self url t
  = (Returned (Some (Bs4.BeautifulSoup markup)),
     t ++ flat_map (retried_attempt self url) (seq 0 k)
       ++ attempt_prelude self url).
Proof.
  intros Hk Hfail Hok. unfold make_request.
  rewrite (range_split _ k Hk), loop_retries by (auto; cbn; lia).
  cbn [make_request_loop]. unfold bind at 1.
  rewrite (attempt_success _ _ markup).
  - unfold ret. now rewrite <- app_assoc.
  - now rewrite count_gets_app, count_gets_retried, length_seq.
Qed.

Lemma attempt_unparsable (attempt : Z) (t : trace) :
  attempt_rejected net (count_gets t) url = true ->
  make_request_attempt net self url attempt t
  = (Raised ParserRejectedMarkup, t ++ attempt_prelude self url).
Proof.
  unfold attempt_rejected. intros Hrej.
  unfold make_request_attempt, try_except, bind, sleep_random, emit,
    requests_get, raise_for_status, lift.
  rewrite count_gets_app, Nat.add_0_r.
  destruct (net (count_gets t) url) as [|r]; [discriminate|].
  apply andb_true_iff in Hrej as [Hok Hbody].
  apply negb_true_iff in Hok. rewrite Hok.
  destruct (content r); [discriminate|].
  cbn. now rewrite <- app_assoc.
Qed.

(** The first attempt that does not fail is attempt [k], and the parser
    rejects its body: the exception of the parser leaves the loop. *)
Lemma make_request_first_rejected (t : trace) (k : nat) :
  Z.of_nat k < max_retries self ->
  (forall j, (j < k)%nat ->
             attempt_fails net (count_gets t + j) url = true) ->
  attempt_rejected net (count_gets t + k) url = true ->
  make_request net self url t
  = (Raised ParserRejectedMarkup,
     t ++ flat_map (retried_attempt self url) (seq 0 k)
       ++ attempt_prelude self url).
Proof.
  intros Hk Hfail Hrej. unfold make_request.
  rewrite (range_split _ k Hk), loop_retries by (auto; cbn; lia).
  cbn [make_request_loop]. unfold bind at 1.
  rewrite attempt_unparsable.
  - now rewrite <- app_assoc.
  - now rewrite count_gets_app, count_gets_retried, length_seq.
Qed.

(** Every attempt fails: the loop returns [None] after the last one. *)
Lemma make_request_all_fail (t : trace) :
  0 < max_retries self ->
  (forall j, Z.of_nat j < max_retries self ->
             attempt_fails net (count_gets t + j) url = true) ->
  make_request net self url t
  = (Returned None,
     t ++ flat_map (retried_attempt self url)
            (seq 0 (Z.to_nat (max_retries self) - 1))
       ++ final_failed_attempt self url).
Proof.
  intros Hpos Hfail. unfold make_request.
  set (k := (Z.to_nat (max_retries self) - 1)%nat).
  assert (Hk : Z.of_nat k = max_retries self - 1) by (subst k; lia).
  rewrite (range_split _ k) by lia.
  rewrite loop_retries by (try (intros; apply Hfail); cbn; lia).
  replace (Z.to_nat (max_retries self) - S k)%nat with 0%nat by lia.
  cbn [seq map make_request_loop]. unfold bind at 1.
  rewrite attempt_failure.
  - rewrite Hk, Z.eqb_refl. unfold ret, final_failed_attempt.
    replace (max_retries self - 1 + 1) with (max_retries self) by lia.
    now rewrite <- !app_assoc.
  - rewrite count_gets_app, count_gets_retried, length_seq.
    apply Hfail. lia.
Qed.

End RetryLoop.

Section RetryLoopFacts.

Variable net : network.
Variable self : BaseScraper.
Variable url : string.

Lemma first_failure_free_prefix (f : nat -> bool) (n : nat) :
  (forall j, (j < n)%nat -> f j = true)
  \/ (exists k, (k < n)%nat /\ f k = false
                /\ forall j, (j < k)%nat -> f j = true).
Proof.
  induction n as [|n [IH|(k & Hk & Hf & Hp)]].
  - left. intros j Hj. lia.
  - destruct (f n) eqn:Hn.
    + left. intros j Hj.
      destruct (Nat.eq_dec j n) as [->|]; [assumption | apply IH; lia].
    + right. exists n. auto.
  - right. exists k. repeat split; auto.
Qed.

Lemma not_fails_cases (n : nat) :
  attempt_fails net n url = false ->
  (exists markup, attempt_succeeds net n url markup)
  \/ attempt_rejected net n url = true.
Proof.
  unfold attempt_fails, attempt_succeeds, attempt_rejected. intros H.
  destruct (net n url) as [|r]; [discriminate|].
  rewrite H. destruct (content r) as [markup|] eqn:Hc.
  - left. exists markup, r. auto.
  - right. reflexivity.
Qed.



Lemma delay_before_retried (ks : list nat) (rest : trace) :
  delay_before_each_get (fst (delay_range self)) (snd (delay_range self))
    (flat_map (retried_attempt self url) ks ++ rest)
  = delay_before_each_get (fst (delay_range self)) (snd (delay_range self))
      rest.
Proof.
  induction ks as [|k ks IH]; [reflexivity|].
  cbn. now rewrite !N.eqb_refl.
Qed.

Lemma backoffs_retried (ks : list nat) (rest : trace) :
  backoffs (flat_map (retried_attempt self url) ks ++ rest)
  = map (fun k => 2 ^ Z.of_nat k) ks ++ backoffs rest.
Proof.
  induction ks as [|k ks IH]; [reflexivity|].
  cbn [flat_map map]. unfold backoffs in *.
  rewrite <- app_assoc, flat_map_app, IH. reflexivity.
Qed.

Lemma make_request_no_retries (t : trace) :
  max_retries self <= 0 ->
  make_request net self url t = (Returned None, t).
Proof.
  intros H. unfold make_request, Py.range.
  replace (Z.to_nat (max_retries self)) with 0%nat by lia. reflexivity.
Qed.

(** The run of [make_request] in full, whatever the network does: a run
    of retried attempts, all of them failed, followed by nothing when no
    attempt is allowed, by the first attempt that does not fail, or by
    the failed attempt that exhausts the retries. *)
Lemma make_request_run (t : trace) :
  exists (o : outcome (option node)) (retried : nat) (ending : trace),
    make_request net self url t
    = (o, t ++ flat_map (retried_attempt self url) (seq 0 retried) ++ ending)
    /\ (forall j, (j < retried)%nat ->
                  attempt_fails net (count_gets t + j) url = true)
    /\ (max_retries self <= 0 /\ retried = 0%nat /\ o = Returned None
        /\ ending = []
        \/ 0 < max_retries self /\ Z.of_nat retried < max_retries self
           /\ attempt_fails net (count_gets t + retried) url = false
           /\ ((exists markup,
                  attempt_succeeds net (count_gets t + retried) url markup
                  /\ o = Returned (Some (Bs4.BeautifulSoup markup)))
               \/ (attempt_rejected net (count_gets t + retried) url = true
                   /\ o = Raised ParserRejectedMarkup))
           /\ ending = attempt_prelude self url
        \/ 0 < max_retries self /\ Z.of_nat retried = max_retries self - 1
           /\ attempt_fails net (count_gets t + retried) url = true
           /\ o = Returned None
           /\ ending = final_failed_attempt self url).
Proof.
  destruct (Z_lt_le_dec 0 (max_retries self)) as [Hpos|Hle].
  - destruct (first_failure_free_prefix
                (fun j => attempt_fails net (count_gets t + j) url)
                (Z.to_nat (max_retries self)))
      as [Hall | (k & Hk & Hok & Hpre)].
    + exists (Returned None), (Z.to_nat (max_retries self) - 1)%nat.
      eexists.
      rewrite make_request_all_fail by (auto; intros; apply Hall; lia).
      split; [reflexivity|]. split; [intros; apply Hall; lia|].
      right; right. repeat split; try lia. apply Hall. lia.
    + destruct (not_fails_cases _ Hok) as [[markup Hm] | Hrej].
      * exists (Returned (Some (Bs4.BeautifulSoup markup))), k. eexists.
        rewrite (make_request_first_success net self url t k markup)
          by (auto; lia).
        split; [reflexivity|]. split; [exact Hpre|].
        right; left. repeat split; try lia; eauto.
      * exists (Raised ParserRejectedMarkup), k. eexists.
        rewrite (make_request_first_rejected net self url t k)
          by (auto; lia).
        split; [reflexivity|]. split; [exact Hpre|].
        right; left. repeat split; try lia; auto.
  - exists (Returned None), 0%nat, [].
    unfold make_request, Py.range.
    replace (Z.to_nat (max_retries self)) with 0%nat by lia.
    cbn. rewrite app_nil_r. split; [reflexivity|].
    split; [intros; lia|]. left. auto.
Qed.

End RetryLoopFacts.

(* ------------------------------------------------------------------ *)
(** ** The fetch routine *)

Lemma last_two {A} (l : list A) (a b d : A) : last (l ++ [a; b]) d = b.
Proof.
  change (l ++ [a; b]) with (l ++ [a] ++ [b]).
  rewrite app_assoc. apply last_last.
Qed.




(** C5. In every run of [make_request], each request comes right after a
    sleep of a delay drawn from the configured range, the first request
    included.  The attempts numbered below [retried] are the failed
    attempts that are not the last: each of them fails, and attempt [k] of
    them is followed by a backoff sleep of [2 ^ k] before the next
    attempt.  Attempt [retried] is the last: it does not fail, or it is
    attempt [max_retries - 1], and no backoff sleep follows it. *)
Theorem make_request_sleeps
    (net : network) (self : BaseScraper) (url : string) (t : trace) :
  exists (o : outcome (option node)) (retried : nat) (ending : trace),
    make_request net self url t
    = (o, t ++ flat_map (retried_attempt self url) (seq 0 retried) ++ ending)
    /\ (forall j, (j < retried)%nat ->
                  attempt_fails net (count_gets t + j) url = true)
    /\ Z.of_nat retried <= Z.max 0 (max_retries self - 1)
    /\ (Z.of_nat retried < max_retries self - 1 ->
        attempt_fails net (count_gets t + retried) url = false)
    /\ ending = (if max_retries self <=? 0 then []
                 else if attempt_fails net (count_gets t + retried) url
                      then final_failed_attempt self url
                      else attempt_prelude self url)
    /\ delay_before_each_get (fst (delay_range self))
         (snd (delay_range self))
         (flat_map (retried_attempt self url) (seq 0 retried) ++ ending)
       = true
    /\ backoffs
         (flat_map (retried_attempt self url) (seq 0 retried) ++ ending)
       = map (fun k => 2 ^ Z.of_nat k) (seq 0 retried)
    /\ backoffs ending = []
    /\ is_backoff
         (last (flat_map (retried_attempt self url) (seq 0 retried)
                ++ ending) (LogError TextExtractionFailed)) = false.
Proof.
  destruct (make_request_run net self url t)
    as (o & retried & ending & Heq & Hfail & Hcase).
  exists o, retried, ending.
  split; [exact Heq|]. split; [exact Hfail|].
  rewrite delay_before_retried, backoffs_retried.
  destruct Hcase
    as [(Hle & -> & _ & ->)
       | [(Hpos & Hlt & Hok & _ & ->) | (Hpos & Hlast & Hbad & _ & ->)]].
  - destruct (Z.leb_spec (max_retries self) 0); [|lia].
    cbn. repeat split; lia.
  - destruct (Z.leb_spec (max_retries self) 0); [lia|]. rewrite Hok.
    cbn [backoffs flat_map attempt_prelude app delay_before_each_get].
    rewrite !N.eqb_refl, app_nil_r.
    repeat split; try lia.
    unfold attempt_prelude. now rewrite last_two.
  - destruct (Z.leb_spec (max_retries self) 0); [lia|]. rewrite Hbad.
    cbn [backoffs flat_map final_failed_attempt attempt_prelude app
         delay_before_each_get].
    rewrite !N.eqb_refl, app_nil_r.
    repeat split; try lia.
    change [?a; ?b; ?c; ?d] with ([a; b] ++ [c; d]).
    now rewrite app_assoc, last_two.
Qed.

(** On a network that always fails, the default scraper, which allows
    three attempts, backs off for 1 and then for 2 time units. *)
Lemma make_request_sleeps_witness :
  exists o emitted,
    make_request always_fails (base thairath) "u" [] = (o, [] ++ emitted)
    /\ backoffs emitted = [1; 2].
Proof.
  destruct (make_request_sleeps always_fails (base thairath) "u" [])
    as (o & retried & ending & Heq & _ & Hle & Hnext & _ & _ & Hback & _).
  assert (Hr : retried = 2%nat).
  { destruct (Z_lt_le_dec (Z.of_nat retried)
                (max_retries (base thairath) - 1)) as [Hlt|Hge].
    - specialize (Hnext Hlt). discriminate Hnext.
    - cbn in Hle, Hge. lia. }
  subst retried. exists o. eexists. split; [exact Heq | exact Hback].
Defined.

(** C10. With [max_retries] zero or negative, [make_request] returns
    [None] at once: the trace is unchanged, so there is no request and no
    sleep. *)
Theorem make_request_zero_retries
    (net : network) (self : BaseScraper) (url : string) (t : trace) :
  max_retries self <= 0 ->
  make_request net self url t = (Returned None, t).
Proof. apply make_request_no_retries. Qed.

Lemma make_request_zero_retries_witness :
  max_retries no_retry_scraper <= 0
  /\ make_request (fails_then_serves 0 []) no_retry_scraper "u" []
     = (Returned None, []).
Proof.
  split; [cbn; lia|].
  apply make_request_zero_retries. cbn. lia.
Defined.

(* ------------------------------------------------------------------ *)
(** ** The site scraper *)

Lemma append_nil_r (s : string) : (s ++ "")%string = s.
Proof. induction s as [|c s IH]; cbn; congruence. Qed.

Lemma append_assoc (a b c : string) :
  (a ++ (b ++ c))%string = ((a ++ b) ++ c)%string.
Proof. induction a as [|x a IH]; cbn; congruence. Qed.

Lemma concat_empty_cons (x : string) (xs : list string) :
  String.concat "" (x :: xs) = (x ++ String.concat "" xs)%string.
Proof.
  destruct xs as [|y ys]; cbn; [now rewrite append_nil_r | reflexivity].
Qed.

Lemma fold_left_append {A} (f : A -> string) (ls : list A) :
  forall init,
    fold_left (fun acc x => (acc ++ f x)%string) ls init
    = (init ++ String.concat "" (map f ls))%string.
Proof.
  induction ls as [|x ls IH]; intros init.
  - cbn. now rewrite append_nil_r.
  - cbn [fold_left map]. rewrite IH, concat_empty_cons.
    now rewrite append_assoc.
Qed.

Section SiteScraper.

Variable net : network.
Variable self : ThaiRathNewsScraper.

Lemma scrape_news_content_absent (url : string) (t t' : trace) :
  make_request net (base self) url t = (Returned None, t') ->
  scrape_news_content net self url t = (Returned None, t').
Proof.
  intros H. unfold scrape_news_content, bind. now rewrite H.
Qed.

Lemma scrape_news_content_fetched (url : string) (t t' : trace) (soup : node) :
  make_request net (base self) url t = (Returned (Some soup), t') ->
  scrape_news_content net self url t
  = match Bs4.find soup "div" "article-body" with
    | Some body =>
        (Returned (Some (String.concat ""
                           (map Bs4.getText (Bs4.find_all body "p")))), t')
    | None => (Raised AttributeError, t')
    end.
Proof.
  intros H. unfold scrape_news_content, bind. rewrite H. cbn.
  destruct (Bs4.find soup "div" "article-body") as [body|]; cbn;
    [|reflexivity].
  now rewrite fold_left_append.
Qed.

Lemma scrape_highlight_news_absent (url category : string) (t t' : trace) :
  make_request net (base self) url t = (Returned None, t') ->
  scrape_highlight_news net self url category t = (Returned None, t').
Proof.
  intros H. unfold scrape_highlight_news, bind. now rewrite H.
Qed.

Lemma scrape_highlight_news_fetched
    (url category : string) (t t' : trace) (soup : node) :
  make_request net (base self) url t = (Returned (Some soup), t') ->
  scrape_highlight_news net self url category t
  = match Bs4.find soup "div" "slick-track" with
    | Some track =>
        match highlight_loop net self url category
                (Bs4.find_all track "a") [] t' with
        | (Returned data, t'') => (Returned (Some data), t'')
        | (Raised e, t'') => (Raised e, t'')
        end
    | None => (Raised AttributeError, t')
    end.
Proof.
  intros H. unfold scrape_highlight_news, bind. rewrite H. cbn.
  destruct (Bs4.find soup "div" "slick-track") as [track|]; reflexivity.
Qed.

Lemma scrape_news_content_raised (url : string) (t t' : trace) (e : exn) :
  make_request net (base self) url t = (Raised e, t') ->
  scrape_news_content net self url t = (Raised e, t').
Proof.
  intros H. unfold scrape_news_content, bind. now rewrite H.
Qed.

Lemma scrape_highlight_news_raised
    (url category : string) (t t' : trace) (e : exn) :
  make_request net (base self) url t = (Raised e, t') ->
  scrape_highlight_news net self url category t = (Raised e, t').
Proof.
  intros H. unfold scrape_highlight_news, bind. now rewrite H.
Qed.

(** When the extraction of every linked article returns, the loop returns
    one record per link, in order. *)
Lemma highlight_loop_records (url category : string) (links : list node) :
  (forall news t, In news links ->
     exists c t',
       scrape_news_content net self
         (url ++ Py.format (Bs4.get news "href"))%string t
       = (Returned c, t')) ->
  forall acc t,
  exists data t',
    highlight_loop net self url category links acc t = (Returned data, t')
    /\ map listing_entry data
       = map listing_entry acc ++ map (expected_entry url category) links.
Proof.
  induction links as [|news links IH]; intros Hret acc t.
  - exists acc, t. cbn. now rewrite app_nil_r.
  - destruct (Hret news t (or_introl eq_refl)) as (c & t1 & Hc).
    cbn [highlight_loop]. unfold bind at 1. rewrite Hc.
    edestruct IH as (data & t2 & Hloop & Hdata).
    + intros n u Hn. apply Hret. now right.
    + exists data, t2. split; [exact Hloop|].
      rewrite Hdata, map_app, <- app_assoc. reflexivity.
Qed.

End SiteScraper.

(** X8. When the page is fetched, its carousel is present and the extraction
    of every linked article returns, [scrape_highlight_news] returns one
    record per link of the carousel, in document order, each with the
    title attribute of the link, the listing URL followed by its href, and
    the category passed in. *)
Lemma scrape_highlight_news_records
    (net : network) (self : ThaiRathNewsScraper) (url category : string)
    (t t' : trace) (soup track : node) :
  make_request net (base self) url t = (Returned (Some soup), t') ->
  Bs4.find soup "div" "slick-track" = Some track ->
  (forall news u, In news (Bs4.find_all track "a") ->
     exists c u',
       scrape_news_content net self
         (url ++ Py.format (Bs4.get news "href"))%string u
       = (Returned c, u')) ->
  exists data t'',
    scrape_highlight_news net self url category t
    = (Returned (Some data), t'')
    /\ map listing_entry data
       = map (expected_entry url category) (Bs4.find_all track "a").
Proof.
  intros Hreq Hfind Hret.
  rewrite (scrape_highlight_news_fetched _ _ _ _ _ _ _ Hreq), Hfind.
  destruct (highlight_loop_records net self url category _ Hret [] t')
    as (data & t'' & Hloop & Hdata).
  rewrite Hloop. eauto.
Qed.

(** The two links of the example listing page give two records, in
    order. *)
Lemma scrape_highlight_news_two_links :
  fst (scrape_highlight_news
         (serves [ (listing_url, listing_page);
                   ((listing_url ++ "/a1")%string, article_page);
                   ((listing_url ++ "/a2")%string, article_page) ])
         thairath listing_url "royal" [])
  = Returned (Some
      [ {| title := Some "T1"; link := (listing_url ++ "/a1")%string;
           news_type := "royal"; article_content := Some "Part1Part2" |};
        {| title := Some "T2"; link := (listing_url ++ "/a2")%string;
           news_type := "royal"; article_content := Some "Part1Part2" |} ]).
Proof. vm_compute. reflexivity. Qed.

(** C6. The claim promises one record per link of the carousel.  On a
    category page with two links, the second leading to a page that has
    no body container, the carousel is found with both links, and the
    extractor raises instead of returning the two records. *)
Theorem scrape_highlight_news_raises_on_malformed_article :
  let site := [ (listing_url, listing_page);
                ((listing_url ++ "/a1")%string, article_page);
                ((listing_url ++ "/a2")%string, page_without_body) ] in
  (exists track,
     Bs4.find (Bs4.BeautifulSoup listing_page) "div" "slick-track"
     = Some track
     /\ map (expected_entry listing_url "royal") (Bs4.find_all track "a")
        = [ (Some "T1", (listing_url ++ "/a1")%string, "royal");
            (Some "T2", (listing_url ++ "/a2")%string, "royal") ])
  /\ fst (make_request (serves site) (base thairath) listing_url [])
     = Returned (Some (Bs4.BeautifulSoup listing_page))
  /\ fst (scrape_highlight_news (serves site) thairath listing_url "royal" [])
     = Raised AttributeError.
Proof.
  cbv zeta. repeat split.
  eexists. split; vm_compute; reflexivity.
Qed.

(** C7. When the fetch returns [None], both extractors return [None] and
    leave the trace as the fetch left it: no lookup, no further request. *)
Theorem absent_fetch_propagates
    (net : network) (self : ThaiRathNewsScraper) (url category : string)
    (t t' : trace) :
  make_request net (base self) url t = (Returned None, t') ->
  scrape_highlight_news net self url category t = (Returned None, t')
  /\ scrape_news_content net self url t = (Returned None, t').
Proof.
  intros H. split.
  - now apply scrape_highlight_news_absent.
  - now apply scrape_news_content_absent.
Qed.

Lemma absent_fetch_propagates_witness :
  exists t',
    make_request always_fails (base thairath) "u" [] = (Returned None, t')
    /\ scrape_highlight_news always_fails thairath "u" "royal" []
       = (Returned None, t')
    /\ scrape_news_content always_fails thairath "u" [] = (Returned None, t').
Proof.
  eexists.
  assert (H : make_request always_fails (base thairath) "u" []
              = (Returned None, _)) by (vm_compute; reflexivity).
  split; [exact H|].
  exact (absent_fetch_propagates always_fails thairath "u" "royal" [] _ H).
Defined.

(** C2. The claim asks for [None] or the empty string when the body
    container is missing.  On a fetched page without the container the
    lookup gives [None] and [scrape_news_content] raises. *)
Theorem scrape_news_content_raises_without_body :
  fst (make_request (serves [("u", page_without_body)]) (base thairath) "u" [])
  = Returned (Some (Bs4.BeautifulSoup page_without_body))
  /\ Bs4.find (Bs4.BeautifulSoup page_without_body) "div" "article-body"
     = None
  /\ fst (scrape_news_content (serves [("u", page_without_body)])
            thairath "u" [])
     = Raised AttributeError.
Proof. repeat split. Qed.

(** C4, as the code has it.  When the page is fetched and its body
    container is present, [scrape_news_content] returns the texts of the
    paragraphs of the container joined in document order with nothing
    between them, each text as the page has it, blanks included. *)
Theorem scrape_news_content_concatenates
    (net : network) (self : ThaiRathNewsScraper) (url : string)
    (t t' : trace) (soup body : node) :
  make_request net (base self) url t = (Returned (Some soup), t') ->
  Bs4.find soup "div" "article-body" = Some body ->
  scrape_news_content net self url t
  = (Returned (Some (String.concat ""
                       (map Bs4.getText (Bs4.find_all body "p")))), t').
Proof.
  intros Hreq Hfind.
  now rewrite (scrape_news_content_fetched _ _ _ _ _ _ Hreq), Hfind.
Qed.

(** The paragraphs Part1 and Part2 give Part1Part2. *)
Lemma scrape_news_content_concatenates_witness :
  exists soup body t',
    make_request (serves [("u", article_page)]) (base thairath) "u" []
    = (Returned (Some soup), t')
    /\ Bs4.find soup "div" "article-body" = Some body
    /\ scrape_news_content (serves [("u", article_page)]) thairath "u" []
       = (Returned (Some "Part1Part2"), t').
Proof.
  do 3 eexists.
  assert (Hreq : make_request (serves [("u", article_page)]) (base thairath)
                   "u" [] = (Returned (Some _), _))
    by (vm_compute; reflexivity).
  assert (Hfind : Bs4.find (Bs4.BeautifulSoup article_page)
                    "div" "article-body" = Some _)
    by (vm_compute; reflexivity).
  split; [exact Hreq|]. split; [exact Hfind|].
  exact (scrape_news_content_concatenates _ thairath "u" [] _ _ _ Hreq Hfind).
Defined.

(** C4 as stated fails: the text of a paragraph is not stripped. *)
Lemma scrape_news_content_keeps_blanks :
  exists body,
    Bs4.find (Bs4.BeautifulSoup spaced_article_page) "div" "article-body"
    = Some body
    /\ stripped_paragraphs body = "Part1Part2"
    /\ fst (scrape_news_content (serves [("u", spaced_article_page)])
              thairath "u" [])
       = Returned (Some " Part1 Part2")
    /\ fst (scrape_news_content (serves [("u", spaced_article_page)])
              thairath "u" [])
       <> Returned (Some (stripped_paragraphs body)).
Proof.
  eexists. split; [vm_compute; reflexivity|].
  repeat split. vm_compute. discriminate.
Qed.

(** C9, as the code has it.  A parsed document is truthy whatever it
    contains, so the guard of the extractors fires for [None] only: each
    of them returns [None] exactly when the fetch returned [None]. *)
Theorem guard_fires_only_on_absent
    (net : network) (self : ThaiRathNewsScraper) (url category : string)
    (t : trace) :
  (forall markup, Bs4.truthy (Some (Bs4.BeautifulSoup markup)) = true)
  /\ (fst (scrape_news_content net self url t) = Returned None
      <-> fst (make_request net (base self) url t) = Returned None)
  /\ (fst (scrape_highlight_news net self url category t) = Returned None
      <-> fst (make_request net (base self) url t) = Returned None).
Proof.
  split; [reflexivity|].
  destruct (make_request net (base self) url t) as [[[soup|]|e] t'] eqn:H.
  - rewrite (scrape_news_content_fetched _ _ _ _ _ _ H),
      (scrape_highlight_news_fetched _ _ _ _ _ _ _ H).
    split.
    + destruct (Bs4.find soup "div" "article-body"); cbn;
        split; discriminate.
    + destruct (Bs4.find soup "div" "slick-track") as [track|]; cbn;
        [|split; discriminate].
      destruct (highlight_loop net self url category _ [] t')
        as [[data|e] t'']; cbn; split; discriminate.
  - rewrite (scrape_news_content_absent _ _ _ _ _ H),
      (scrape_highlight_news_absent _ _ _ _ _ _ H).
    cbn. tauto.
  - rewrite (scrape_news_content_raised _ _ _ _ _ _ H),
      (scrape_highlight_news_raised _ _ _ _ _ _ _ H).
    cbn. split; split; discriminate.
Qed.

(** C9 as stated fails: a fetched document without child nodes is not
    taken for a failed fetch; neither extractor returns [None] on it. *)
Lemma empty_document_passes_guard :
  fst (make_request (serves [("u", [])]) (base thairath) "u" [])
  = Returned (Some (Bs4.BeautifulSoup []))
  /\ Bs4.descendants (Bs4.BeautifulSoup []) = []
  /\ fst (scrape_news_content (serves [("u", [])]) thairath "u" [])
     <> Returned None
  /\ fst (scrape_highlight_news (serves [("u", [])]) thairath "u" "royal" [])
     <> Returned None.
Proof. repeat split; vm_compute; discriminate. Qed.

(** C3. The claim has [scrape] call the listing extractor with the URL
    and the category.  The call passes the URL alone, so the first turn of
    the loop raises a [TypeError] before any request or sleep, whatever the
    network and the argument. *)
Theorem scrape_raises_type_error
    (net : network) (url : string) (t : trace) :
  scrape net thairath url t = (Raised TypeError, t).
Proof. reflexivity. Qed.

(* ------------------------------------------------------------------ *)
(** ** Text extraction *)

Lemma get_text_single_string
    (name : string) (attrs : list (string * string)) (s : string) :
  Bs4.get_text true (Tag name attrs [NavigableString s]) = Py.strip s.
Proof.
  unfold Bs4.get_text, Bs4.all_strings. cbn.
  destruct (Py.strip s) as [|c r]; reflexivity.
Qed.

(** C8, as the code has it.  [extract_text] returns for every argument
    and never raises.  On [None] it returns the default.  When the truth
    test or the text extraction of the argument raises it returns the
    default.  On a tag it returns the text fragments of the tag, each
    stripped of the blanks around it, the empty ones dropped, joined with
    nothing between them; for a tag that holds one string this is the
    string stripped, so that a tag holding "  Hello World  " gives
    "Hello World". *)
Theorem extract_text_safe (e : element) (default : string) (t : trace) :
  (exists v t', extract_text e default t = (Returned v, t'))
  /\ extract_text ElNone default t = (Returned default, t)
  /\ (forall x, element_truth e = Raised x ->
                fst (extract_text e default t) = Returned default)
  /\ (forall x, element_get_text e = Raised x ->
                fst (extract_text e default t) = Returned default)
  /\ (forall name attrs contents,
        extract_text (ElTag name attrs contents) default t
        = (Returned (String.concat ""
                       (Bs4.all_strings true (Tag name attrs contents))), t))
  /\ (forall name attrs s,
        extract_text (ElTag name attrs [NavigableString s]) default t
        = (Returned (Py.strip s), t))
  /\ extract_text (ElTag "p" [] [NavigableString "  Hello World  "]) default t
     = (Returned "Hello World", t).
Proof.
  split.
  { destruct e as [| name attrs contents | [[|]|x] [s|y]]; cbn;
      unfold ret; eauto. }
  split; [reflexivity|]. split.
  { intros x Hx. destruct e as [| name attrs contents | truth text];
      cbn in Hx; try discriminate. subst truth. reflexivity. }
  split.
  { intros x Hx.
    destruct e as [| name attrs contents | [[|]|y] text];
      cbn in Hx; try discriminate; try reflexivity.
    subst text. reflexivity. }
  split; [reflexivity|]. split; [|reflexivity].
  intros name attrs s.
  unfold extract_text, try_except, bind, lift, ret. cbn -[Bs4.get_text].
  now rewrite get_text_single_string.
Qed.

(** C8 as stated fails: on a tag whose text is split by an inline tag the
    result is not the text of the tag with the blanks around it removed,
    for the blank inside it is lost too. *)
Lemma extract_text_strips_each_fragment :
  extract_text (ElTag "p" [] split_paragraph) "" [] = (Returned "HelloWorld", [])
  /\ Py.strip (Bs4.getText (Tag "p" [] split_paragraph)) = "Hello World"
  /\ fst (extract_text (ElTag "p" [] split_paragraph) "" [])
     <> Returned (Py.strip (Bs4.getText (Tag "p" [] split_paragraph))).
Proof. repeat split. vm_compute. discriminate. Qed.

(* ------------------------------------------------------------------ *)
(** ** More on the fetch routine *)

Section FetchFacts.

Variable net : network.
Variable self : BaseScraper.
Variable url : string.

Lemma filter_gets_retried (ks : list nat) :
  filter is_get (flat_map (retried_attempt self url) ks)
  = repeat (Get url (headers self) (timeout self)) (List.length ks).
Proof.
  induction ks as [|k ks IH]; [reflexivity|].
  cbn [flat_map]. rewrite filter_app, IH. reflexivity.
Qed.

Lemma make_request_document_inv (t : trace) (d : node) :
  fst (make_request net self url t) = Returned (Some d) ->
  exists (k : nat) (markup : list node),
    Z.of_nat k < max_retries self
    /\ (forall j, (j < k)%nat ->
                  attempt_fails net (count_gets t + j) url = true)
    /\ attempt_succeeds net (count_gets t + k) url markup
    /\ d = Bs4.BeautifulSoup markup.
Proof.
  intros H.
  destruct (make_request_run net self url t)
    as (o & retried & ending & Heq & Hfail & Hcase).
  rewrite Heq in H. cbn in H. subst o.
  destruct Hcase
    as [(_ & _ & Ho & _)
       | [(_ & Hlt & _ & [(markup & Hok & Ho) | (_ & Ho)] & _)
         | (_ & _ & _ & Ho & _)]];
    try discriminate.
  exists retried, markup. repeat split; auto. congruence.
Qed.

End FetchFacts.

Lemma make_request_gets
    (net : network) (self : BaseScraper) (url : string) (t : trace) :
  exists (o : outcome (option node)) (emitted : trace) (n : nat),
    make_request net self url t = (o, t ++ emitted)
    /\ filter is_get emitted
       = repeat (Get url (headers self) (timeout self)) n
    /\ (n <= Z.to_nat (max_retries self))%nat
    /\ (0 < max_retries self -> (1 <= n)%nat).
Proof.
  destruct (make_request_run net self url t)
    as (o & retried & ending & Heq & _ & Hcase).
  exists o. eexists.
  exists (retried + List.length (filter is_get ending))%nat.
  split; [exact Heq|].
  rewrite filter_app, filter_gets_retried, length_seq, repeat_app.
  destruct Hcase
    as [(? & ? & _ & ->) | [(? & ? & _ & _ & ->) | (? & ? & _ & _ & ->)]];
    cbn; repeat split; (reflexivity || lia).
Qed.

(** X1. Every request that [make_request] issues is a GET of the URL it
    was called with, carrying the headers and the timeout of the instance;
    there are at most [max_retries] of them. *)
Theorem make_request_requests
    (net : network) (self : BaseScraper) (url : string) (t : trace) :
  exists (o : outcome (option node)) (emitted : trace) (n : nat),
    make_request net self url t = (o, t ++ emitted)
    /\ filter is_get emitted
       = repeat (Get url (headers self) (timeout self)) n
    /\ (n <= Z.to_nat (max_retries self))%nat.
Proof.
  destruct (make_request_gets net self url t)
    as (o & emitted & n & H1 & H2 & H3 & _).
  exists o, emitted, n. auto.
Qed.

(** X2. A scraper built without headers, or with an empty dictionary of
    headers, sends the default User-Agent and Accept-Language with every
    request; built with a dictionary that is not empty it sends that. *)
Theorem constructor_headers_are_sent
    (net : network) (base_url : string) (max_retries timeout : Z)
    (delay_range : N * N) (url : string) (t : trace) :
  (forall hs, hs = None \/ hs = Some [] ->
     exists o emitted n,
       make_request net
         (BaseScraper_init base_url hs max_retries timeout delay_range) url t
       = (o, t ++ emitted)
       /\ filter is_get emitted = repeat (Get url default_headers timeout) n)
  /\ (forall h hs,
        exists o emitted n,
          make_request net
            (BaseScraper_init base_url (Some (h :: hs)) max_retries timeout
               delay_range) url t
          = (o, t ++ emitted)
          /\ filter is_get emitted = repeat (Get url (h :: hs) timeout) n).
Proof.
  split.
  - intros hs Hhs.
    destruct (make_request_gets net
                (BaseScraper_init base_url hs max_retries timeout
                   delay_range) url t)
      as (o & emitted & n & H1 & H2 & _).
    exists o, emitted, n. split; [exact H1|].
    destruct Hhs as [-> | ->]; exact H2.
  - intros h hs.
    destruct (make_request_gets net
                (BaseScraper_init base_url (Some (h :: hs)) max_retries
                   timeout delay_range) url t)
      as (o & emitted & n & H1 & H2 & _).
    exists o, emitted, n. split; [exact H1 | exact H2].
Qed.

(** X3. [make_request] returns [None] exactly when every one of the
    attempts that [max_retries] allows fails. *)
Theorem make_request_absent_iff
    (net : network) (self : BaseScraper) (url : string) (t : trace) :
  fst (make_request net self url t) = Returned None
  <-> (forall j, Z.of_nat j < max_retries self ->
                 attempt_fails net (count_gets t + j) url = true).
Proof.
  split.
  - intros H j Hj.
    destruct (attempt_fails net (count_gets t + j) url) eqn:Hf;
      [reflexivity | exfalso].
    destruct (first_failure_free_prefix
                (fun i => attempt_fails net (count_gets t + i) url) (S j))
      as [Hall | (k & Hk & Hok & Hpre)].
    + rewrite Hall in Hf by lia. discriminate.
    + destruct (not_fails_cases _ _ _ Hok) as [[markup Hm] | Hrej].
      * rewrite (make_request_first_success net self url t k markup) in H
          by (auto; lia).
        discriminate.
      * rewrite (make_request_first_rejected net self url t k) in H
          by (auto; lia).
        discriminate.
  - intros Hall.
    destruct (Z_lt_le_dec 0 (max_retries self)) as [Hpos|Hle].
    + now rewrite make_request_all_fail.
    + now rewrite make_request_no_retries.
Qed.

(** X4. Allowing more attempts never loses a result: a document that is
    fetched with some [max_retries] is fetched, from the same state of the
    network, with any larger one. *)
Theorem make_request_more_retries
    (net : network) (self self' : BaseScraper) (url : string) (t : trace)
    (d : node) :
  max_retries self <= max_retries self' ->
  fst (make_request net self url t) = Returned (Some d) ->
  fst (make_request net self' url t) = Returned (Some d).
Proof.
  intros Hle H.
  destruct (make_request_document_inv net self url t d H)
    as (k & markup & Hk & Hpre & Hok & ->).
  rewrite (make_request_first_success net self' url t k markup)
    by (auto; lia).
  reflexivity.
Qed.

Lemma make_request_more_retries_witness :
  max_retries (base thairath) <= max_retries patient_scraper
  /\ fst (make_request (fails_then_serves 2 article_page) (base thairath)
            "u" [])
     = Returned (Some (Bs4.BeautifulSoup article_page))
  /\ fst (make_request (fails_then_serves 2 article_page) patient_scraper
            "u" [])
     = Returned (Some (Bs4.BeautifulSoup article_page)).
Proof.
  assert (Hle : max_retries (base thairath) <= max_retries patient_scraper)
    by (cbn; lia).
  assert (H : fst (make_request (fails_then_serves 2 article_page)
                     (base thairath) "u" [])
              = Returned (Some (Bs4.BeautifulSoup article_page)))
    by reflexivity.
  split; [exact Hle|]. split; [exact H|].
  exact (make_request_more_retries _ _ _ _ _ _ Hle H).
Defined.

Lemma warnings_retried
    (self : BaseScraper) (url : string) (ks : list nat) (rest : trace) :
  warnings (flat_map (retried_attempt self url) ks ++ rest)
  = map (fun k => RequestFailed (Z.of_nat k + 1) (max_retries self)) ks
    ++ warnings rest.
Proof.
  induction ks as [|k ks IH]; [reflexivity|].
  cbn [flat_map map]. unfold warnings in *.
  rewrite <- app_assoc, flat_map_app, IH. reflexivity.
Qed.

Lemma errors_retried
    (self : BaseScraper) (url : string) (ks : list nat) (rest : trace) :
  errors (flat_map (retried_attempt self url) ks ++ rest) = errors rest.
Proof.
  induction ks as [|k ks IH]; [reflexivity|].
  cbn [flat_map]. unfold errors in *.
  rewrite <- app_assoc, flat_map_app, IH. reflexivity.
Qed.

(** X5. [make_request] logs one warning per failed attempt, numbered
    from 1 in the order of the attempts, and one error exactly when it
    gives up.  The failed attempts are the attempts numbered below
    [failed]: each of them fails, and attempt [failed] does not fail
    unless the attempts are used up.  A run whose attempts do not all
    fail logs no error. *)
Theorem make_request_log
    (net : network) (self : BaseScraper) (url : string) (t : trace) :
  exists (o : outcome (option node)) (failed : nat) (emitted : trace),
    make_request net self url t = (o, t ++ emitted)
    /\ (forall j, (j < failed)%nat ->
                  attempt_fails net (count_gets t + j) url = true)
    /\ Z.of_nat failed <= Z.max 0 (max_retries self)
    /\ (Z.of_nat failed < max_retries self ->
        attempt_fails net (count_gets t + failed) url = false)
    /\ warnings emitted
       = map (fun k => RequestFailed (Z.of_nat k + 1) (max_retries self))
           (seq 0 failed)
    /\ errors emitted
       = if (0 <? max_retries self) && (Z.of_nat failed =? max_retries self)
         then [FetchFailed url (max_retries self)]
         else [].
Proof.
  destruct (make_request_run net self url t)
    as (o & retried & ending & Heq & Hfail & Hcase).
  destruct Hcase
    as [(Hle & -> & _ & ->)
       | [(Hpos & Hlt & Hok & _ & ->) | (Hpos & Hlast & Hbad & _ & ->)]].
  - exists o, 0%nat. eexists. split; [exact Heq|].
    destruct (Z.ltb_spec 0 (max_retries self)); [lia|].
    cbn. repeat split; intros; (lia || reflexivity).
  - exists o, retried. eexists. split; [exact Heq|].
    rewrite warnings_retried, errors_retried.
    destruct (Z.eqb_spec (Z.of_nat retried) (max_retries self)); [lia|].
    rewrite andb_false_r. cbn. rewrite app_nil_r.
    repeat split; auto; lia.
  - exists o, (S retried). eexists. split; [exact Heq|].
    rewrite warnings_retried, errors_retried.
    destruct (Z.ltb_spec 0 (max_retries self)); [|lia].
    destruct (Z.eqb_spec (Z.of_nat (S retried)) (max_retries self)); [|lia].
    cbn [warnings errors final_failed_attempt attempt_prelude flat_map app
         andb].
    rewrite seq_S, map_app. cbn [map Nat.add].
    replace (Z.of_nat retried + 1) with (max_retries self) by lia.
    repeat split; try lia.
    intros j Hj. destruct (Nat.eq_dec j retried) as [->|];
      [exact Hbad | apply Hfail; lia].
Qed.

(** On a network that always fails, the default scraper, which allows
    three attempts, logs the warnings 1/3, 2/3 and 3/3 and then the
    error. *)
Lemma make_request_log_witness :
  exists o emitted,
    make_request always_fails (base thairath) "u" [] = (o, [] ++ emitted)
    /\ warnings emitted
       = [RequestFailed 1 3; RequestFailed 2 3; RequestFailed 3 3]
    /\ errors emitted = [FetchFailed "u" 3].
Proof.
  destruct (make_request_log always_fails (base thairath) "u" [])
    as (o & failed & emitted & Heq & _ & Hle & Hnext & Hwarn & Herr).
  assert (Hf : failed = 3%nat).
  { destruct (Z_lt_le_dec (Z.of_nat failed) (max_retries (base thairath)))
      as [Hlt|Hge].
    - specialize (Hnext Hlt). discriminate Hnext.
    - cbn in Hle, Hge. lia. }
  subst failed. exists o, emitted.
  split; [exact Heq|]. split; [exact Hwarn | exact Herr].
Defined.

Lemma sum_powers_of_two (n : nat) :
  fold_right Z.add 0 (map (fun k => 2 ^ Z.of_nat k) (seq 0 n))
  = 2 ^ Z.of_nat n - 1.
Proof.
  induction n as [|n IH]; [reflexivity|].
  rewrite seq_S, map_app, fold_right_app. cbn [map fold_right Nat.add].
  assert (Hgen : forall (l : list Z) (a : Z),
             fold_right Z.add a l = fold_right Z.add 0 l + a).
  { induction l as [|x l IHl]; intros a; cbn; [lia|].
    rewrite (IHl a). lia. }
  rewrite Hgen, IH, Nat2Z.inj_succ, Z.pow_succ_r by lia. lia.
Qed.

(** X6. With a positive [max_retries] = N the backoff sleeps of one
    [make_request] add up to at most [2 ^ (N - 1) - 1], and to exactly
    that when the fetch gives up. *)
Theorem make_request_total_backoff
    (net : network) (self : BaseScraper) (url : string) (t : trace) :
  0 < max_retries self ->
  exists (o : outcome (option node)) (emitted : trace),
    make_request net self url t = (o, t ++ emitted)
    /\ total_backoff emitted <= 2 ^ (max_retries self - 1) - 1
    /\ (o = Returned None ->
        total_backoff emitted = 2 ^ (max_retries self - 1) - 1).
Proof.
  intros Hpos.
  destruct (make_request_run net self url t)
    as (o & retried & ending & Heq & _ & Hcase).
  exists o. eexists. split; [exact Heq|].
  unfold total_backoff. rewrite backoffs_retried.
  destruct Hcase
    as [(Hle & _) | [(_ & Hlt & _ & Ho & ->) | (_ & Hlast & _ & _ & ->)]];
    [lia | | ];
    cbn [backoffs flat_map attempt_prelude final_failed_attempt app];
    rewrite app_nil_r, sum_powers_of_two.
  - assert (Hpow : 2 ^ Z.of_nat retried <= 2 ^ (max_retries self - 1))
      by (apply Z.pow_le_mono_r; lia).
    split; [lia|]. intros ->.
    destruct Ho as [(markup & _ & Ho) | (_ & Ho)]; discriminate.
  - rewrite Hlast. split; [lia | reflexivity].
Qed.

Lemma make_request_total_backoff_witness :
  0 < max_retries (base thairath)
  /\ exists emitted,
       make_request always_fails (base thairath) "u" []
       = (Returned None, [] ++ emitted)
       /\ total_backoff emitted = 3.
Proof.
  assert (Hpos : 0 < max_retries (base thairath)) by (cbn; lia).
  split; [exact Hpos|].
  destruct (make_request_total_backoff always_fails (base thairath) "u" []
              Hpos) as (o & emitted & Heq & _ & Hnone).
  exists emitted.
  assert (Ho : o = Returned None).
  { assert (Hf : fst (make_request always_fails (base thairath) "u" [])
                 = Returned None) by reflexivity.
    rewrite Heq in Hf. exact Hf. }
  subst o. split; [exact Heq|]. exact (Hnone eq_refl).
Defined.

(* ------------------------------------------------------------------ *)
(** ** More on the site scraper *)

Lemma delay_before_app (lo hi : N) (n : nat) :
  forall a b : trace,
    (List.length a <= n)%nat ->
    delay_before_each_get lo hi a = true ->
    delay_before_each_get lo hi b = true ->
    delay_before_each_get lo hi (a ++ b) = true.
Proof.
  induction n as [|n IH]; intros a b Hlen Ha Hb.
  - destruct a; [exact Hb | cbn in Hlen; lia].
  - destruct a as [|e a]; [exact Hb|].
    assert (Hskip : delay_before_each_get lo hi a = true ->
                    delay_before_each_get lo hi (a ++ b) = true)
      by (intros Ha'; apply IH; [cbn in Hlen; lia | exact Ha' | exact Hb]).
    destruct e as [lo' hi' | secs | u h to | r | r];
      [ | exact (Hskip Ha) | discriminate Ha
        | exact (Hskip Ha) | exact (Hskip Ha) ].
    destruct a as [|e' a].
    + destruct b as [|eb b]; [reflexivity|].
      destruct eb; (exact Hb || discriminate Hb).
    + destruct e' as [lo2 hi2 | secs | u h to | r | r];
        [ exact (Hskip Ha) | exact (Hskip Ha) |
        | exact (Hskip Ha) | exact (Hskip Ha) ].
      change ((lo' =? lo)%N && (hi' =? hi)%N
              && delay_before_each_get lo hi a = true) in Ha.
      change ((lo' =? lo)%N && (hi' =? hi)%N
              && delay_before_each_get lo hi (a ++ b) = true).
      apply andb_true_iff in Ha as [Heq Ha]. rewrite Heq. cbn.
      apply IH; [cbn in Hlen; lia | exact Ha | exact Hb].
Qed.

Lemma requested_urls_filter (e : trace) :
  requested_urls (filter is_get e) = requested_urls e.
Proof.
  unfold requested_urls.
  induction e as [|x e IH]; [reflexivity|].
  destruct x; cbn; rewrite ?IH; reflexivity.
Qed.

Lemma requested_urls_repeat
    (u : string) (h : list (string * string)) (to : Z) (n : nat) :
  requested_urls (repeat (Get u h to) n) = repeat u n.
Proof.
  unfold requested_urls.
  induction n as [|n IH]; [reflexivity|]. cbn. now rewrite IH.
Qed.

Lemma prefix_append (a b : string) : String.prefix a (a ++ b) = true.
Proof.
  induction a as [|c a IH]; [now destruct b|].
  cbn. destruct (Ascii.ascii_dec c c); [exact IH | congruence].
Qed.

Lemma prefix_refl (a : string) : String.prefix a a = true.
Proof.
  induction a as [|c a IH]; [reflexivity|].
  cbn. destruct (Ascii.ascii_dec c c); [exact IH | congruence].
Qed.

Section SiteRuns.

Variable net : network.
Variable self : ThaiRathNewsScraper.

Lemma make_request_fetch_run (u : string) (t : trace) :
  exists o e,
    make_request net (base self) u t = (o, t ++ e)
    /\ fetch_run (base self) u e.
Proof.
  destruct (make_request_run net (base self) u t)
    as (o & retried & ending & Heq & _ & Hcase).
  exists o. eexists. split; [exact Heq|]. split.
  - exists (retried + List.length (filter is_get ending))%nat.
    rewrite filter_app, filter_gets_retried, length_seq, repeat_app.
    destruct Hcase
      as [(? & ? & _ & ->) | [(? & ? & _ & _ & ->) | (? & ? & _ & _ & ->)]];
      cbn; split; (reflexivity || lia).
  - rewrite delay_before_retried.
    destruct Hcase
      as [(? & ? & _ & ->) | [(? & ? & _ & _ & ->) | (? & ? & _ & _ & ->)]];
      cbn; now rewrite ?N.eqb_refl.
Qed.

Lemma scrape_news_content_trace (u : string) (t : trace) :
  snd (scrape_news_content net self u t)
  = snd (make_request net (base self) u t).
Proof.
  destruct (make_request net (base self) u t) as [[[soup|]|e] t'] eqn:H.
  - rewrite (scrape_news_content_fetched _ _ _ _ _ _ H).
    now destruct (Bs4.find soup "div" "article-body").
  - now rewrite (scrape_news_content_absent _ _ _ _ _ H).
  - now rewrite (scrape_news_content_raised _ _ _ _ _ _ H).
Qed.

Lemma scrape_news_content_run (u : string) (t : trace) :
  exists e,
    snd (scrape_news_content net self u t) = t ++ e
    /\ fetch_run (base self) u e.
Proof.
  destruct (make_request_fetch_run u t) as (v & e & H & Hrun).
  exists e. now rewrite scrape_news_content_trace, H.
Qed.

(** The runs of [make_request] behind a run of the loop over the links:
    one for each link reached, in order. *)
Lemma highlight_loop_runs (url category : string) (links : list node) :
  forall acc t,
  exists es : list (string * trace),
    snd (highlight_loop net self url category links acc t)
    = t ++ List.concat (map snd es)
    /\ (List.length es <= List.length links)%nat
    /\ Forall (fun ue => fetch_run (base self) (fst ue) (snd ue)
                         /\ exists news, fst ue = article_url url news) es.
Proof.
  induction links as [|news links IH]; intros acc t.
  - exists []. cbn. rewrite app_nil_r. auto.
  - destruct (scrape_news_content_run (article_url url news) t)
      as (e & He & Hrun).
    cbn [highlight_loop]. unfold bind at 1.
    fold (article_url url news).
    destruct (scrape_news_content net self (article_url url news) t)
      as [[c|x] t1] eqn:Hc; cbn in He; subst t1.
    + destruct (IH (acc ++ [ {| title := Bs4.get news "title";
                                link := article_url url news;
                                news_type := category;
                                article_content := c |} ]) (t ++ e))
        as (es & Hes & Hlen & Hall).
      exists ((article_url url news, e) :: es).
      rewrite Hes. cbn. rewrite <- app_assoc.
      repeat split; [lia|]. constructor; [cbn; eauto | assumption].
    + exists [(article_url url news, e)]. cbn. rewrite app_nil_r.
      repeat split; [lia|]. constructor; [cbn; eauto | constructor].
Qed.

Lemma scrape_highlight_news_runs (url category : string) (t : trace) :
  exists es : list (string * trace),
    snd (scrape_highlight_news net self url category t)
    = t ++ List.concat (map snd es)
    /\ (List.length es
        <= 1 + List.length
                 (links_of_fetch (fst (make_request net (base self) url t))))%nat
    /\ Forall (fun ue => fetch_run (base self) (fst ue) (snd ue)
                         /\ (fst ue = url
                             \/ exists news, fst ue = article_url url news))
         es.
Proof.
  destruct (make_request_fetch_run url t) as ([[soup|]|x] & e & H & Hrun).
  - rewrite (scrape_highlight_news_fetched _ _ _ _ _ _ _ H), H.
    cbn [fst links_of_fetch]. unfold carousel_links.
    destruct (Bs4.find soup "div" "slick-track") as [track|].
    + destruct (highlight_loop_runs url category (Bs4.find_all track "a")
                  [] (t ++ e)) as (es & Hes & Hlen & Hall).
      exists ((url, e) :: es).
      assert (Hsnd : snd match highlight_loop net self url category
                                 (Bs4.find_all track "a") [] (t ++ e) with
                         | (Returned data, t'') => (Returned (Some data), t'')
                         | (Raised x, t'') => (Raised x, t'')
                         end
                     = snd (highlight_loop net self url category
                              (Bs4.find_all track "a") [] (t ++ e)))
        by (now destruct (highlight_loop net self url category
                            (Bs4.find_all track "a") [] (t ++ e))
              as [[data|x] t'']).
      rewrite Hsnd, Hes. cbn. rewrite <- app_assoc.
      repeat split; [lia|]. constructor; [auto|].
      eapply Forall_impl; [|exact Hall]. cbn. intros ue [? ?]. auto.
    + exists [(url, e)]. cbn. rewrite app_nil_r.
      repeat split; [lia|]. constructor; auto.
  - rewrite (scrape_highlight_news_absent _ _ _ _ _ _ H), H.
    exists [(url, e)]. cbn. rewrite app_nil_r.
    repeat split; [lia|]. constructor; auto.
  - rewrite (scrape_highlight_news_raised _ _ _ _ _ _ _ H), H.
    exists [(url, e)]. cbn. rewrite app_nil_r.
    repeat split; [lia|]. constructor; auto.
Qed.

End SiteRuns.

Lemma runs_requested_urls
    (self : BaseScraper) (P : string -> Prop) (es : list (string * trace)) :
  Forall (fun ue => fetch_run self (fst ue) (snd ue) /\ P (fst ue)) es ->
  Forall P (requested_urls (List.concat (map snd es))).
Proof.
  induction 1 as [|[u e] es [[(n & _ & Hgets) _] HP] _ IH]; [constructor|].
  cbn [map fst snd List.concat] in *.
  assert (He : requested_urls e = repeat u n)
    by (now rewrite <- requested_urls_filter, Hgets, requested_urls_repeat).
  unfold requested_urls in *.
  rewrite flat_map_app, He. apply Forall_app. split; [|exact IH].
  clear - HP. induction n; constructor; auto.
Qed.

Lemma runs_count_gets
    (self : BaseScraper) (P : string -> Prop) (es : list (string * trace)) :
  Forall (fun ue => fetch_run self (fst ue) (snd ue) /\ P (fst ue)) es ->
  (count_gets (List.concat (map snd es))
   <= Z.to_nat (max_retries self) * List.length es)%nat.
Proof.
  induction 1 as [|[u e] es [[(n & Hn & Hgets) _] _] _ IH]; [cbn; lia|].
  cbn [map snd List.concat List.length]. rewrite count_gets_app.
  assert (count_gets e = n)
    by (unfold count_gets; cbn in Hgets; now rewrite Hgets, repeat_length).
  nia.
Qed.

Lemma runs_delay
    (self : BaseScraper) (P : string -> Prop) (es : list (string * trace)) :
  Forall (fun ue => fetch_run self (fst ue) (snd ue) /\ P (fst ue)) es ->
  delay_before_each_get (fst (delay_range self)) (snd (delay_range self))
    (List.concat (map snd es)) = true.
Proof.
  induction 1 as [|[u e] es [[_ Hd] _] _ IH]; [reflexivity|].
  cbn [map snd List.concat].
  apply (delay_before_app _ _ (List.length e)); auto.
Qed.

Lemma serves_fetch
    (site : list (string * list node)) (self : BaseScraper) (u : string)
    (markup : list node) (t : trace) :
  0 < max_retries self ->
  page_of site u = Some markup ->
  make_request (serves site) self u t
  = (Returned (Some (Bs4.BeautifulSoup markup)), t ++ attempt_prelude self u).
Proof.
  intros Hpos Hpage.
  rewrite (make_request_first_success (serves site) self u t 0 markup).
  - reflexivity.
  - cbn; lia.
  - intros j Hj. lia.
  - unfold attempt_succeeds, serves. rewrite Hpage. eexists. cbn. eauto.
Qed.

(** X7. Whatever its outcome, [scrape_news_content] leaves exactly the
    trace of its one call of [make_request]: the lookups in the page issue
    no request and log nothing, also when they fail. *)
Theorem scrape_news_content_effects
    (net : network) (self : ThaiRathNewsScraper) (url : string) (t : trace) :
  snd (scrape_news_content net self url t)
  = snd (make_request net (base self) url t).
Proof. apply scrape_news_content_trace. Qed.

(** The two links of the example listing page, with both articles served,
    give two records in order. *)
Lemma scrape_highlight_news_records_witness :
  let site := [ (listing_url, listing_page);
                ((listing_url ++ "/a1")%string, article_page);
                ((listing_url ++ "/a2")%string, article_page) ] in
  exists data t'',
    scrape_highlight_news (serves site) thairath listing_url "royal" []
    = (Returned (Some data), t'')
    /\ map listing_entry data
       = [ (Some "T1", (listing_url ++ "/a1")%string, "royal");
           (Some "T2", (listing_url ++ "/a2")%string, "royal") ].
Proof.
  cbv zeta.
  set (site := [ (listing_url, listing_page);
                 ((listing_url ++ "/a1")%string, article_page);
                 ((listing_url ++ "/a2")%string, article_page) ]).
  assert (Hpos : 0 < max_retries (base thairath)) by (cbn; lia).
  assert (Hfind : Bs4.find (Bs4.BeautifulSoup listing_page) "div" "slick-track"
                  = Some (Tag "div" [("class", "slick-track")]
                            [ Tag "a" [("href", "/a1"); ("title", "T1")] [];
                              Tag "a" [("href", "/a2"); ("title", "T2")] [] ]))
    by reflexivity.
  refine (scrape_highlight_news_records (serves site) thairath listing_url
            "royal" [] _ _ _
            (serves_fetch site (base thairath) listing_url listing_page []
               Hpos eq_refl)
            Hfind _).
  intros news u Hin.
  assert (Hart : forall link,
             page_of site link = Some article_page ->
             exists c u',
               scrape_news_content (serves site) thairath link u
               = (Returned c, u')).
  { intros link Hpage.
    rewrite (scrape_news_content_fetched _ _ _ _ _ _
               (serves_fetch site (base thairath) link article_page u
                  Hpos Hpage)).
    cbn. eauto. }
  destruct Hin as [<- | [<- | []]]; apply Hart; reflexivity.
Defined.

(** X9. A category page whose carousel holds no link gives the empty list
    of records, not [None], and no request beyond the fetch of the page. *)
Theorem scrape_highlight_news_empty_carousel
    (net : network) (self : ThaiRathNewsScraper) (url category : string)
    (t t' : trace) (soup track : node) :
  make_request net (base self) url t = (Returned (Some soup), t') ->
  Bs4.find soup "div" "slick-track" = Some track ->
  Bs4.find_all track "a" = [] ->
  scrape_highlight_news net self url category t = (Returned (Some []), t').
Proof.
  intros Hreq Hfind Hnone.
  rewrite (scrape_highlight_news_fetched _ _ _ _ _ _ _ Hreq), Hfind, Hnone.
  reflexivity.
Qed.

Lemma scrape_highlight_news_empty_carousel_witness :
  exists soup track t',
    make_request (serves [(listing_url, empty_listing_page)]) (base thairath)
      listing_url [] = (Returned (Some soup), t')
    /\ Bs4.find soup "div" "slick-track" = Some track
    /\ Bs4.find_all track "a" = []
    /\ scrape_highlight_news (serves [(listing_url, empty_listing_page)])
         thairath listing_url "royal" [] = (Returned (Some []), t').
Proof.
  do 3 eexists.
  assert (Hreq : make_request (serves [(listing_url, empty_listing_page)])
                   (base thairath) listing_url []
                 = (Returned (Some _), _)) by (vm_compute; reflexivity).
  assert (Hfind : Bs4.find (Bs4.BeautifulSoup empty_listing_page)
                    "div" "slick-track" = Some _)
    by (vm_compute; reflexivity).
  assert (Hnone : Bs4.find_all (Tag "div" [("class", "slick-track")] []) "a"
                  = []) by reflexivity.
  split; [exact Hreq|]. split; [exact Hfind|]. split; [exact Hnone|].
  exact (scrape_highlight_news_empty_carousel _ thairath listing_url "royal"
           [] _ _ _ Hreq Hfind Hnone).
Defined.

(** X10. Whatever its outcome, every request that [scrape_highlight_news]
    issues, for the category page and for the articles, is for a URL that
    starts with the URL it was called with. *)
Theorem scrape_highlight_news_stays_under_url
    (net : network) (self : ThaiRathNewsScraper) (url category : string)
    (t : trace) :
  exists emitted,
    snd (scrape_highlight_news net self url category t) = t ++ emitted
    /\ Forall (fun u => String.prefix url u = true) (requested_urls emitted).
Proof.
  destruct (scrape_highlight_news_runs net self url category t)
    as (es & Hes & _ & Hall).
  eexists. split; [exact Hes|].
  apply (runs_requested_urls (base self)).
  eapply Forall_impl; [|exact Hall].
  intros [u e] [Hrun [Hu | [news Hu]]]; cbn in *; subst u;
    (split; [assumption|]).
  - apply prefix_refl.
  - apply prefix_append.
Qed.

(** X11. Whatever its outcome, [scrape_highlight_news] issues at most
    [max_retries] requests for the category page and for each link of its
    carousel. *)
Theorem scrape_highlight_news_request_bound
    (net : network) (self : ThaiRathNewsScraper) (url category : string)
    (t : trace) :
  exists emitted,
    snd (scrape_highlight_news net self url category t) = t ++ emitted
    /\ (count_gets emitted
        <= Z.to_nat (max_retries (base self))
           * (1 + List.length
                    (links_of_fetch
                       (fst (make_request net (base self) url t)))))%nat.
Proof.
  destruct (scrape_highlight_news_runs net self url category t)
    as (es & Hes & Hlen & Hall).
  eexists. split; [exact Hes|].
  pose proof (runs_count_gets (base self)
                (fun u => u = url \/ exists news, u = article_url url news)
                es Hall) as Hcount.
  nia.
Qed.

(** X12. Whatever its outcome, every request of a run of
    [scrape_highlight_news], for the category page and for the articles,
    comes right after a sleep of a random delay drawn from the configured
    range. *)
Theorem scrape_highlight_news_delays
    (net : network) (self : ThaiRathNewsScraper) (url category : string)
    (t : trace) :
  exists emitted,
    snd (scrape_highlight_news net self url category t) = t ++ emitted
    /\ delay_before_each_get (fst (delay_range (base self)))
         (snd (delay_range (base self))) emitted = true.
Proof.
  destruct (scrape_highlight_news_runs net self url category t)
    as (es & Hes & _ & Hall).
  eexists. split; [exact Hes|].
  exact (runs_delay (base self)
           (fun u => u = url \/ exists news, u = article_url url news)
           es Hall).
Qed.

(** X13. [scrape_news_content] raises in two cases and no other: its
    call of [make_request] raises, and it passes that exception on; or
    the page is fetched and has no body container, and it raises an
    [AttributeError].  A fetch that returns [None] never makes it
    raise. *)
Theorem scrape_news_content_raises_iff
    (net : network) (self : ThaiRathNewsScraper) (url : string) (t : trace)
    (e : exn) :
  fst (scrape_news_content net self url t) = Raised e
  <-> fst (make_request net (base self) url t) = Raised e
      \/ (e = AttributeError
          /\ exists soup,
               fst (make_request net (base self) url t)
               = Returned (Some soup)
               /\ Bs4.find soup "div" "article-body" = None).
Proof.
  destruct (make_request net (base self) url t) as [[[soup|]|x] t'] eqn:H.
  - rewrite (scrape_news_content_fetched _ _ _ _ _ _ H). cbn [fst].
    destruct (Bs4.find soup "div" "article-body") as [body|] eqn:Hfind;
      cbn [fst]; split.
    + discriminate.
    + intros [Hr | (_ & soup' & Hs & Hf)]; [discriminate | congruence].
    + intros He. right. split; [congruence|].
      exists soup. split; [reflexivity | exact Hfind].
    + intros [Hr | (-> & _)]; [discriminate | reflexivity].
  - rewrite (scrape_news_content_absent _ _ _ _ _ H). cbn [fst]. split.
    + discriminate.
    + intros [Hr | (_ & soup' & Hs & _)]; discriminate.
  - rewrite (scrape_news_content_raised _ _ _ _ _ _ H). cbn [fst]. split.
    + intros Hr. left. injection Hr as ->. reflexivity.
    + intros [Hr | (_ & soup' & Hs & _)]; [|discriminate].
      injection Hr as ->. reflexivity.
Qed.

(** On a network that answers with a body that the parser rejects, the
    exception of the parser passes through [scrape_news_content]; on a
    page without body container it raises an [AttributeError]. *)
Lemma scrape_news_content_raises_iff_witness :
  fst (scrape_news_content serves_unparsable thairath "u" [])
  = Raised ParserRejectedMarkup
  /\ fst (scrape_news_content (serves [("u", page_without_body)]) thairath
            "u" [])
     = Raised AttributeError.
Proof.
  split.
  - apply (proj2 (scrape_news_content_raises_iff serves_unparsable thairath
                    "u" [] ParserRejectedMarkup)).
    left. reflexivity.
  - apply (proj2 (scrape_news_content_raises_iff
                    (serves [("u", page_without_body)]) thairath
                    "u" [] AttributeError)).
    right. split; [reflexivity|]. eexists. split; reflexivity.
Defined.

(** X14. On a fetched category page that has no carousel container,
    [scrape_highlight_news] raises an [AttributeError], having issued no
    request beyond the fetch of the page. *)
Theorem scrape_highlight_news_raises_without_carousel
    (net : network) (self : ThaiRathNewsScraper) (url category : string)
    (t t' : trace) (soup : node) :
  make_request net (base self) url t = (Returned (Some soup), t') ->
  Bs4.find soup "div" "slick-track" = None ->
  scrape_highlight_news net self url category t = (Raised AttributeError, t').
Proof.
  intros Hreq Hfind.
  now rewrite (scrape_highlight_news_fetched _ _ _ _ _ _ _ Hreq), Hfind.
Qed.

Lemma scrape_highlight_news_raises_without_carousel_witness :
  exists soup t',
    make_request (serves [(listing_url, article_page)]) (base thairath)
      listing_url [] = (Returned (Some soup), t')
    /\ Bs4.find soup "div" "slick-track" = None
    /\ scrape_highlight_news (serves [(listing_url, article_page)]) thairath
         listing_url "royal" [] = (Raised AttributeError, t').
Proof.
  do 2 eexists.
  assert (Hreq : make_request (serves [(listing_url, article_page)])
                   (base thairath) listing_url []
                 = (Returned (Some _), _)) by (vm_compute; reflexivity).
  assert (Hfind : Bs4.find (Bs4.BeautifulSoup article_page)
                    "div" "slick-track" = None) by reflexivity.
  split; [exact Hreq|]. split; [exact Hfind|].
  exact (scrape_highlight_news_raises_without_carousel _ thairath listing_url
           "royal" [] _ _ Hreq Hfind).
Defined.

(** X15. A fetched article whose body container holds no paragraph gives
    the empty string, not [None]. *)
Theorem scrape_news_content_no_paragraph
    (net : network) (self : ThaiRathNewsScraper) (url : string)
    (t t' : trace) (soup body : node) :
  make_request net (base self) url t = (Returned (Some soup), t') ->
  Bs4.find soup "div" "article-body" = Some body ->
  Bs4.find_all body "p" = [] ->
  scrape_news_content net self url t = (Returned (Some ""), t').
Proof.
  intros Hreq Hfind Hnone.
  now rewrite (scrape_news_content_fetched _ _ _ _ _ _ Hreq), Hfind, Hnone.
Qed.

Lemma scrape_news_content_no_paragraph_witness :
  exists soup body t',
    make_request (serves [("u", empty_article_page)]) (base thairath) "u" []
    = (Returned (Some soup), t')
    /\ Bs4.find soup "div" "article-body" = Some body
    /\ Bs4.find_all body "p" = []
    /\ scrape_news_content (serves [("u", empty_article_page)]) thairath
         "u" [] = (Returned (Some ""), t').
Proof.
  do 3 eexists.
  assert (Hreq : make_request (serves [("u", empty_article_page)])
                   (base thairath) "u" [] = (Returned (Some _), _))
    by (vm_compute; reflexivity).
  assert (Hfind : Bs4.find (Bs4.BeautifulSoup empty_article_page)
                    "div" "article-body" = Some _)
    by (vm_compute; reflexivity).
  assert (Hnone : Bs4.find_all
                    (Tag "div" [("class", "article-body")]
                       [ Tag "div" [("class", "ads")]
                           [NavigableString "Sponsored"] ]) "p" = [])
    by reflexivity.
  split; [exact Hreq|]. split; [exact Hfind|]. split; [exact Hnone|].
  exact (scrape_news_content_no_paragraph _ thairath "u" [] _ _ _
           Hreq Hfind Hnone).
Defined.
